(** * ai_server/server.py: the two request handlers of the AI server

    A shallow embedding of [src/ai_server/server.py].  The file has two
    handlers: [classify] (POST /ai/hf-classify), which runs a pretrained
    sequence classifier on one transaction text, and [fina_categorize]
    (POST /ai/fina-categorize), which forwards a batch of items to the
    Fina categorisation API and relays the answer.

    Python values are embedded as data ([pystr], [pyval]); the calls that
    leave the process (tokenizer, model, [requests.post], [Response.json])
    are nodes of a finite program tree ([prog]) that a handler answers, so
    that what was sent, in which order, and what was never called can be
    read off the trace of a run. *)

From Stdlib Require Import ZArith NArith List Ascii String Lia.
From Stdlib Require Import Floats.SpecFloat.
From stdpp Require Import base decidable option list gmap pretty.

Set Warnings "-register-all".
Local Open Scope Z_scope.

(** ** Python strings *)

(** A Python [str] is a sequence of Unicode code points. *)
Definition pystr : Type := list N.

(** An ASCII literal of the source, as a [pystr]. *)
Definition u (s : string) : pystr :=
  List.map N_of_ascii (list_ascii_of_string s).

(** [str.isspace] on one character, as CPython's [_PyUnicode_IsWhitespace]
    lists the code points. *)
Definition Py_UNICODE_ISSPACE (c : N) : bool :=
  ((9 <=? c) && (c <=? 13) ||
   (28 <=? c) && (c <=? 32) ||
   (c =? 133) || (c =? 160) || (c =? 5760) ||
   (8192 <=? c) && (c <=? 8202) ||
   (c =? 8232) || (c =? 8233) || (c =? 8239) || (c =? 8287) ||
   (c =? 12288))%N.

(** [str.lstrip()], [str.rstrip()] and [str.strip()] without argument. *)
Fixpoint lstrip (s : pystr) : pystr :=
  match s with
  | c :: s' => if Py_UNICODE_ISSPACE c then lstrip s' else s
  | [] => []
  end.

Definition rstrip (s : pystr) : pystr := rev (lstrip (rev s)).

Definition strip (s : pystr) : pystr := rstrip (lstrip s).

(** [str(n)] for a Python [int]: decimal digits, with a leading minus
    sign for a negative number. *)
Definition str_of_int (n : Z) : pystr := u (pretty n).

(** ** Python values *)

(** The values that cross the handlers: JSON data and the entries of the
    model's label table.  A dict with string keys keeps its insertion
    order. *)
Inductive pyval : Type :=
| PyNone
| PyBool (b : bool)
| PyInt (n : Z)
| PyFloat (x : spec_float)
| PyStr (s : pystr)
| PyList (xs : list pyval)
| PyDict (kvs : list (pystr * pyval)).

(** [d.get(k)] on a dict literal: the value of the last entry written
    under [k]; the literals of this file never repeat a key. *)
Fixpoint dict_get (k : pystr) (kvs : list (pystr * pyval)) : option pyval :=
  match kvs with
  | [] => None
  | (k', v) :: kvs' =>
      match dict_get k kvs' with
      | Some w => Some w
      | None => if bool_decide (k' = k) then Some v else None
      end
  end.

Definition has_key (k : pystr) (v : pyval) : bool :=
  match v with
  | PyDict kvs => bool_decide (is_Some (dict_get k kvs))
  | _ => false
  end.

(** Truth value testing ([bool(x)], [not x], [x or y]). *)
Class Truthy (A : Type) := truth : A -> bool.

#[export] Instance pystr_truthy : Truthy pystr :=
  fun s => match s with [] => false | _ :: _ => true end.

#[export] Instance bool_truthy : Truthy bool := fun b => b.

#[export] Instance int_truthy : Truthy Z := fun n => negb (n =? 0).

#[export] Instance float_truthy : Truthy spec_float :=
  fun x => match x with S754_zero _ => false | _ => true end.

#[export] Instance pyval_truthy : Truthy pyval :=
  fun v =>
    match v with
    | PyNone => false
    | PyBool b => truth b
    | PyInt n => truth n
    | PyFloat x => truth x
    | PyStr s => truth s
    | PyList xs => match xs with [] => false | _ :: _ => true end
    | PyDict kvs => match kvs with [] => false | _ :: _ => true end
    end.

(** [x or d] where [x] is an [Optional[A]] attribute and [d] an [A]. *)
Definition py_or {A} `{Truthy A} (x : option A) (d : A) : A :=
  match x with
  | Some a => if truth a then a else d
  | None => d
  end.

(** ** Calls that leave the handler *)

(** An exception, by the name of its class. *)
Definition pyexc : Type := pystr.

Inductive outcome (A : Type) : Type :=
| Returns (a : A)
| Raises (e : pyexc).
Arguments Returns {A} a.
Arguments Raises {A} e.

(** A handler body: it returns, raises, or makes an outside call [e] and
    goes on with the answer. *)
Inductive prog (E : Type -> Type) (R : Type) : Type :=
| Ret (r : R)
| Raise (e : pyexc)
| Vis (X : Type) (e : E X) (k : X -> prog E R).
Arguments Ret {E R} r.
Arguments Raise {E R} e.
Arguments Vis {E R X} e k.

Fixpoint bind {E R S} (p : prog E R) (f : R -> prog E S) : prog E S :=
  match p with
  | Ret r => f r
  | Raise e => Raise e
  | Vis e k => Vis e (fun x => bind (k x) f)
  end.

(** A call whose exception is not caught at the call site. *)
Definition call {E X} (e : E (outcome X)) : prog E X :=
  Vis e (fun o => match o with Returns x => Ret x | Raises ex => Raise ex end).

(** [try: p  except Exception: h]. *)
Fixpoint try_except {E R} (p : prog E R) (h : pyexc -> prog E R) : prog E R :=
  match p with
  | Ret r => Ret r
  | Raise e => h e
  | Vis e k => Vis e (fun x => try_except (k x) h)
  end.

#[export] Instance prog_ret {E} : MRet (prog E) := fun _ r => Ret r.
#[export] Instance prog_bind {E} : MBind (prog E) := fun _ _ f p => bind p f.

(** The outside world: it answers each call and moves to a next state. *)
Definition handler (E : Type -> Type) (W : Type) : Type :=
  forall X, E X -> W -> X * W.

(** One entry of a trace: a call and the answer it got. *)
Record event (E : Type -> Type) : Type :=
  Event { ev_type : Type; ev_call : E ev_type; ev_answer : ev_type }.
Arguments Event {E ev_type} ev_call ev_answer.
Arguments ev_type {E} e.
Arguments ev_call {E} e.
Arguments ev_answer {E} e.

(** Running a handler body against a world: the calls made with their
    answers, in order, the outcome, and the world afterwards. *)
Fixpoint run {E W R} (h : handler E W) (w : W) (p : prog E R)
  : list (event E) * outcome R * W :=
  match p with
  | Ret r => ([], Returns r, w)
  | Raise e => ([], Raises e, w)
  | Vis e k =>
      let '(x, w1) := h _ e w in
      let '(tr, o, w2) := run h w1 (k x) in
      (Event e x :: tr, o, w2)
  end.

Definition trace_of {E W R} (h : handler E W) (w : W) (p : prog E R) : list (event E) :=
  fst (fst (run h w p)).

Definition outcome_of {E W R} (h : handler E W) (w : W) (p : prog E R) : outcome R :=
  snd (fst (run h w p)).

(** ** POST /ai/hf-classify *)

(** The tensor library and the loaded model, as far as [classify] uses
    them.  [Inputs] is what the tokenizer returns, [Tensor] a tensor of
    scores; the three operations are those of lines 46 to 48. *)
Record Torch : Type := {
  Inputs : Type;
  Tensor : Type;
  (** [torch.softmax(t, dim=-1)] *)
  torch_softmax : Tensor -> Tensor;
  (** [int(torch.argmax(t, dim=-1).item())] *)
  torch_argmax : Tensor -> Z;
  (** [float(t[0, i].item())] *)
  tensor_item : Tensor -> Z -> spec_float
}.

(** [model.config.id2label] as [classify] sees it: the attribute may be
    missing, may hold something that is not a dict, or holds a dict, read
    here through its integer keys (the only keys [get(label_id)] can
    hit). *)
Inductive id2label_attr : Type :=
| AttrMissing
| AttrNotDict
| AttrDict (d : gmap Z pyval).

(** [class ClassifyRequest(BaseModel)]. *)
Record ClassifyRequest : Type := {
  text : pystr;
  type : option pystr
}.

(** The calls [classify] makes on the process-wide singletons. *)
Inductive hfE (T : Torch) : Type -> Type :=
| Tokenizer (s : pystr) : hfE T (outcome (Inputs T))
| Model (inputs : Inputs T) : hfE T (outcome (Tensor T)).
Arguments Tokenizer {T} s.
Arguments Model {T} inputs.

(** [item.type in ("income", "expense", "expenses")]. *)
Definition type_in_tuple (ty : option pystr) : bool :=
  match ty with
  | Some t =>
      bool_decide (t = u "income") || bool_decide (t = u "expense")
      || bool_decide (t = u "expenses")
  | None => false
  end.

(** [f"Transaction: {text} - Type: {item.type}"]; a [None] type would
    print as [None], which the guard of [prepare_text] excludes. *)
Definition transaction_template (txt : pystr) (ty : option pystr) : pystr :=
  u "Transaction: " ++ txt ++ u " - Type: " ++ default (u "None") ty.

(** Lines 38 to 40. *)
Definition prepare_text (item : ClassifyRequest) : pystr :=
  let txt := strip (text item) in
  if type_in_tuple (type item) then transaction_template txt (type item)
  else txt.

(** Lines 50 to 54. *)
Definition resolve_label_name (id2label : id2label_attr) (label_id : Z) : pyval :=
  let label_name :=
    match id2label with
    | AttrDict d => default PyNone (d !! label_id)
    | AttrMissing | AttrNotDict => PyNone
    end in
  if negb (truth label_name) then PyStr (u "LABEL_" ++ str_of_int label_id)
  else label_name.

Definition classify (T : Torch) (id2label : id2label_attr) (item : ClassifyRequest)
  : prog (hfE T) pyval :=
  let txt := prepare_text item in
  inputs ← call (Tokenizer txt);
  logits ← call (Model inputs);
  let probs := torch_softmax T logits in
  let label_id := torch_argmax T probs in
  let score := tensor_item T probs label_id in
  let label_name := resolve_label_name id2label label_id in
  Ret (PyDict [ (u "label_id", PyInt label_id);
                (u "label_name", label_name);
                (u "score", PyFloat score) ]).

(** The texts handed to the tokenizer during a run. *)
Definition tokenized {T} (tr : list (event (hfE T))) : list pystr :=
  omap (fun ev : event (hfE T) =>
          match ev_call ev with
          | Tokenizer s => Some s
          | Model _ => None
          end) tr.

(** What the model answered during a run. *)
Definition model_outputs {T} (tr : list (event (hfE T))) : list (outcome (Tensor T)) :=
  omap (fun ev : event (hfE T) =>
          match ev_call ev in hfE _ X return X -> option (outcome (Tensor T)) with
          | Tokenizer _ => fun _ => None
          | Model _ => fun o => Some o
          end (ev_answer ev)) tr.

(** ** POST /ai/fina-categorize *)

Definition FINA_API_URL : pystr := u "https://app.fina.money/api/resource/categorize".
Definition FINA_API_KEY_DEFAULT : pystr := u "fina-api-test".
Definition FINA_PARTNER_ID_DEFAULT : pystr := u "f-j1fvmjmj".

(** A number held by a model attribute: the class default [0] is a Python
    [int], a validated input a [float]. *)
Inductive number : Type :=
| Int (n : Z)
| Float (x : spec_float).

(** [class FinaItem(BaseModel)]. *)
Record FinaItem : Type := {
  name : pystr;
  merchant : option pystr;
  amount : option number
}.

(** [class FinaRequest(BaseModel)]. *)
Record FinaRequest : Type := {
  items : list FinaItem;
  model : option pystr;
  mapping : option bool;
  api_key : option pystr;
  partner_id : option pystr
}.

(** A field of a request body: left out, [null], or given. *)
Inductive field (A : Type) : Type :=
| Omitted
| Null
| Given (a : A).
Arguments Omitted {A}.
Arguments Null {A}.
Arguments Given {A} a.

(** An [Optional[A]] attribute with a class default: the default when the
    field is left out, [None] for [null], the value otherwise. *)
Definition optional {A} (dflt : option A) (f : field A) : option A :=
  match f with
  | Omitted => dflt
  | Null => None
  | Given a => Some a
  end.

(** The JSON bodies the two classes validate. *)
Record FinaItemBody : Type := {
  body_name : pystr;
  body_merchant : field pystr;
  body_amount : field spec_float
}.

Record FinaRequestBody : Type := {
  body_items : list FinaItemBody;
  body_model : field pystr;
  body_mapping : field bool;
  body_api_key : field pystr;
  body_partner_id : field pystr
}.

(** Lines 66 to 69: [merchant: Optional[str] = ""], [amount: Optional[float] = 0]. *)
Definition FinaItem_validate (b : FinaItemBody) : FinaItem :=
  {| name := body_name b;
     merchant := optional (Some (u "")) (body_merchant b);
     amount := optional (Some (Int 0))
                 (match body_amount b with
                  | Omitted => Omitted
                  | Null => Null
                  | Given x => Given (Float x)
                  end) |}.

(** Lines 71 to 76. *)
Definition FinaRequest_validate (b : FinaRequestBody) : FinaRequest :=
  {| items := List.map FinaItem_validate (body_items b);
     model := optional (Some (u "v3")) (body_model b);
     mapping := optional (Some true) (body_mapping b);
     api_key := optional None (body_api_key b);
     partner_id := optional None (body_partner_id b) |}.

(** [it.model_dump()]: the attributes in declaration order. *)
Definition model_dump (it : FinaItem) : pyval :=
  PyDict [ (u "name", PyStr (name it));
           (u "merchant", match merchant it with Some s => PyStr s | None => PyNone end);
           (u "amount", match amount it with
                        | Some (Int n) => PyInt n
                        | Some (Float x) => PyFloat x
                        | None => PyNone
                        end) ].

Module Response.
(** What [fina_categorize] reads of a [requests.Response]. *)
Record t : Type := { status_code : Z; text : pystr }.
End Response.

(** The calls [fina_categorize] makes. *)
Inductive requestsE : Type -> Type :=
| requests_post (url : pystr) (json : pyval) (headers : list (pystr * pystr))
    (timeout : Z) : requestsE (outcome Response.t)
| Response_json (r : Response.t) : requestsE (outcome pyval).

(** The locals of [fina_categorize], lines 80 to 94, as functions of the
    request. *)
Definition fina_model (req : FinaRequest) : pystr :=
  py_or (model req) (u "v3").

Definition fina_mapping (req : FinaRequest) : pystr :=
  if match mapping req with None => true | Some b => b end
  then u "true" else u "false".

Definition fina_api_key (req : FinaRequest) : pystr :=
  py_or (api_key req) FINA_API_KEY_DEFAULT.

Definition fina_partner_id (req : FinaRequest) : pystr :=
  py_or (partner_id req) FINA_PARTNER_ID_DEFAULT.

Definition fina_headers (req : FinaRequest) : list (pystr * pystr) :=
  [ (u "Content-Type", u "application/json");
    (u "x-api-key", fina_api_key req);
    (u "x-partner-id", fina_partner_id req);
    (u "x-api-model", fina_model req);
    (u "x-api-mapping", fina_mapping req) ].

Definition fina_payload (req : FinaRequest) : pyval :=
  if bool_decide (fina_model req = u "v1")
  then PyList (List.map (fun it => PyStr (name it)) (items req))
  else PyList (List.map model_dump (items req)).

(** Lines 95 to 102. *)
Definition fina_categorize (req : FinaRequest) : prog requestsE pyval :=
  let headers := fina_headers req in
  let payload := fina_payload req in
  r ← call (requests_post FINA_API_URL payload headers 15);
  if 400 <=? Response.status_code r
  then Ret (PyDict [ (u "status", PyInt (Response.status_code r));
                     (u "error", PyStr (Response.text r)) ])
  else
    data ← try_except (call (Response_json r))
                      (fun _ => Ret (PyStr (Response.text r)));
    Ret (PyDict [ (u "status", PyInt 200); (u "categories", data) ]).

(** What the upstream answers to the post of [req] from world [w], and
    the world after it. *)
Definition post_answer {W} (h : handler requestsE W) (w : W) (req : FinaRequest)
  : outcome Response.t * W :=
  h _ (requests_post FINA_API_URL (fina_payload req) (fina_headers req) 15) w.

(** What a run posted: url, payload, headers and timeout of each
    [requests.post]. *)
Definition posted (tr : list (event requestsE))
  : list (pystr * pyval * list (pystr * pystr) * Z) :=
  omap (fun ev : event requestsE =>
          match ev_call ev with
          | requests_post url json headers timeout => Some (url, json, headers, timeout)
          | Response_json _ => None
          end) tr.

Definition sent_payloads (tr : list (event requestsE)) : list pyval :=
  List.map (fun p => snd (fst (fst p))) (posted tr).

Definition sent_headers (tr : list (event requestsE)) : list (list (pystr * pystr)) :=
  List.map (fun p => snd (fst p)) (posted tr).

(** What the upstream API answered to a run's posts. *)
Definition upstream_responses (tr : list (event requestsE)) : list (outcome Response.t) :=
  omap (fun ev : event requestsE =>
          match ev_call ev in requestsE X return X -> option (outcome Response.t) with
          | requests_post _ _ _ _ => fun o => Some o
          | Response_json _ => fun _ => None
          end (ev_answer ev)) tr.

(** The responses whose body a run parsed as JSON, with what the parser
    answered. *)
Definition json_parsed (tr : list (event requestsE)) : list (Response.t * outcome pyval) :=
  omap (fun ev : event requestsE =>
          match ev_call ev in requestsE X return X -> option (Response.t * outcome pyval) with
          | requests_post _ _ _ _ => fun _ => None
          | Response_json r => fun o => Some (r, o)
          end (ev_answer ev)) tr.

(** A header of a header dict, by name. *)
Definition header (k : pystr) (hs : list (pystr * pystr)) : option pystr :=
  snd <$> List.find (fun kv => bool_decide (fst kv = k)) hs.

(** ** Test doubles *)

(** An upstream that answers every post with [ans] and every parse of a
    body with [parsed]. *)
Definition mock_upstream (ans : outcome Response.t) (parsed : outcome pyval)
  : handler requestsE unit :=
  fun X e w =>
    match e in requestsE X return X * unit with
    | requests_post _ _ _ _ => (ans, w)
    | Response_json _ => (parsed, w)
    end.

Definition not_found : Response.t :=
  {| Response.status_code := 404; Response.text := u "not found" |}.

Definition ok_plain_text : Response.t :=
  {| Response.status_code := 200; Response.text := u "plain text" |}.

Definition created_json : Response.t :=
  {| Response.status_code := 201; Response.text := u "[1]" |}.

(** One item with only its name, and one with every field given. *)
Definition coffee : FinaItemBody :=
  {| body_name := u "coffee"; body_merchant := Omitted; body_amount := Omitted |}.

Definition rent : FinaItemBody :=
  {| body_name := u "rent";
     body_merchant := Given (u "landlord");
     body_amount := Given (S754_finite false 75 4) |}.

(** A body with only its items, and variations of it. *)
Definition bare_body : FinaRequestBody :=
  {| body_items := [coffee; rent];
     body_model := Omitted; body_mapping := Omitted;
     body_api_key := Omitted; body_partner_id := Omitted |}.

Definition v1_body : FinaRequestBody :=
  {| body_items := [coffee; rent];
     body_model := Given (u "v1"); body_mapping := Given false;
     body_api_key := Given (u "k-123"); body_partner_id := Given (u "p-9") |}.

Definition empty_key_body : FinaRequestBody :=
  {| body_items := [coffee];
     body_model := Omitted; body_mapping := Omitted;
     body_api_key := Given (u ""); body_partner_id := Omitted |}.

Definition blank_body : FinaRequestBody :=
  {| body_items := [coffee];
     body_model := Given (u ""); body_mapping := Null;
     body_api_key := Given (u ""); body_partner_id := Given (u "") |}.

(** A stand-in for the tensor library whose tensors carry nothing but the
    index of their largest score, and a model that answers every input
    with the tensor [lid]. *)
Definition stub_torch : Torch :=
  {| Inputs := pystr;
     Tensor := Z;
     torch_softmax := fun t => t;
     torch_argmax := fun t => t;
     tensor_item := fun _ _ => S754_finite false 1 0 |}.

Definition mock_model (lid : Z) : handler (hfE stub_torch) unit :=
  fun X e w =>
    match e in hfE _ X return X * unit with
    | Tokenizer s => (Returns s, w)
    | Model _ => (Returns lid, w)
    end.

Definition coffee_expense : ClassifyRequest :=
  {| text := u "  coffee shop "; type := Some (u "expense") |}.

Definition coffee_untyped : ClassifyRequest :=
  {| text := u "  coffee shop "; type := None |}.

(** ** Further observations and test doubles *)

(** A text with no whitespace at either end (the empty text included). *)
Definition is_trimmed (t : pystr) : bool :=
  match t with
  | [] => true
  | c :: _ =>
      negb (Py_UNICODE_ISSPACE c)
      && match last t with
         | Some d => negb (Py_UNICODE_ISSPACE d)
         | None => true
         end
  end.

(** What the tokenizer answered during a run, and what the model was
    called on. *)
Definition tokenizer_outputs {T} (tr : list (event (hfE T))) : list (outcome (Inputs T)) :=
  omap (fun ev : event (hfE T) =>
          match ev_call ev in hfE _ X return X -> option (outcome (Inputs T)) with
          | Tokenizer _ => fun o => Some o
          | Model _ => fun _ => None
          end (ev_answer ev)) tr.

Definition model_inputs {T} (tr : list (event (hfE T))) : list (Inputs T) :=
  omap (fun ev : event (hfE T) =>
          match ev_call ev with
          | Tokenizer _ => None
          | Model inputs => Some inputs
          end) tr.

(** [GET /health], lines 31 to 33: no outside call, whatever the calls a
    handler body could make. *)
Definition health {E} : prog E pyval :=
  Ret (PyDict [ (u "status", PyStr (u "ok")) ]).

(** Which of the two singletons each call of a run went to, in order. *)
Inductive hf_target : Type := ToTokenizer | ToModel.

Definition call_order {T} (tr : list (event (hfE T))) : list hf_target :=
  List.map (fun ev : event (hfE T) =>
              match ev_call ev with
              | Tokenizer _ => ToTokenizer
              | Model _ => ToModel
              end) tr.


(** A tokenizer that raises, and a model that raises on every input. *)
Definition failing_tokenizer (e : pyexc) : handler (hfE stub_torch) unit :=
  fun X ev w =>
    match ev in hfE _ X return X * unit with
    | Tokenizer _ => (Raises e, w)
    | Model _ => (Returns 0, w)
    end.

Definition failing_model (e : pyexc) : handler (hfE stub_torch) unit :=
  fun X ev w =>
    match ev in hfE _ X return X * unit with
    | Tokenizer s => (Returns s, w)
    | Model _ => (Raises e, w)
    end.

Definition blank_expense : ClassifyRequest :=
  {| text := u "   "; type := Some (u "expense") |}.

Definition no_items_body : FinaRequestBody :=
  {| body_items := [];
     body_model := Given (u "v1"); body_mapping := Omitted;
     body_api_key := Omitted; body_partner_id := Omitted |}.

(** * Properties *)

(** ** Strings *)

Lemma lstrip_head (s : pystr) (c : N) (s' : pystr) :
  lstrip s = c :: s' -> Py_UNICODE_ISSPACE c = false.
Proof.
  induction s as [|a s IH]; simpl; [discriminate|].
  destruct (Py_UNICODE_ISSPACE a) eqn:Ha; [exact IH|].
  intros [= <- _]. exact Ha.
Qed.

Lemma lstrip_suffix (s : pystr) : exists ws, s = ws ++ lstrip s /\ forallb Py_UNICODE_ISSPACE ws = true.
Proof.
  induction s as [|a s (ws & Hs & Hws)]; simpl.
  - exists []. done.
  - destruct (Py_UNICODE_ISSPACE a) eqn:Ha.
    + exists (a :: ws). simpl. rewrite Ha, Hws. split; [congruence|done].
    + exists []. done.
Qed.

Lemma lstrip_no_space (s : pystr) :
  match s with c :: _ => Py_UNICODE_ISSPACE c = false | [] => True end ->
  lstrip s = s.
Proof. destruct s as [|c s]; simpl; [done|]. by intros ->. Qed.

Lemma lstrip_idem (s : pystr) : lstrip (lstrip s) = lstrip s.
Proof.
  apply lstrip_no_space. destruct (lstrip s) as [|c s'] eqn:E; [done|].
  by apply lstrip_head in E.
Qed.

Lemma rstrip_idem (s : pystr) : rstrip (rstrip s) = rstrip s.
Proof. unfold rstrip. by rewrite rev_involutive, lstrip_idem. Qed.

(** Stripping keeps a string whose two ends are not whitespace. *)
Lemma strip_fixed (c d : N) (s : pystr) :
  Py_UNICODE_ISSPACE c = false -> Py_UNICODE_ISSPACE d = false ->
  strip (c :: s ++ [d]) = c :: s ++ [d].
Proof.
  intros Hc Hd. unfold strip, rstrip. simpl. rewrite Hc.
  change (c :: s ++ [d]) with ((c :: s) ++ [d]).
  rewrite rev_app_distr. simpl. rewrite Hd.
  change (d :: rev s ++ [c]) with ([d] ++ rev (c :: s)).
  by rewrite rev_app_distr, rev_involutive.
Qed.

Lemma rstrip_prefix (s : pystr) :
  exists ws, s = rstrip s ++ ws /\ forallb Py_UNICODE_ISSPACE ws = true.
Proof.
  destruct (lstrip_suffix (rev s)) as (ws & Hs & Hws).
  exists (rev ws). split.
  - unfold rstrip. rewrite <- rev_app_distr, <- Hs. by rewrite rev_involutive.
  - rewrite forallb_forall in *. intros c Hc. apply Hws. by apply in_rev.
Qed.

(** A trimmed text neither starts nor ends with whitespace. *)
Lemma strip_head (s : pystr) (c : N) (s' : pystr) :
  strip s = c :: s' -> Py_UNICODE_ISSPACE c = false.
Proof.
  unfold strip. intros H.
  destruct (rstrip_prefix (lstrip s)) as (ws & Hs & _).
  rewrite H in Hs. by apply lstrip_head in Hs.
Qed.

Lemma strip_last (s : pystr) (c : N) (s' : pystr) :
  strip s = s' ++ [c] -> Py_UNICODE_ISSPACE c = false.
Proof.
  unfold strip, rstrip. intros H.
  apply (f_equal (@rev N)) in H. rewrite rev_involutive, rev_app_distr in H.
  by apply lstrip_head in H.
Qed.

(** ** Runs of [fina_categorize] *)

(** One step of a run: unfold the handler body up to its next call. *)
Ltac run_prog := cbn [run bind call try_except mbind prog_bind].

Section FinaRuns.
Context {W : Type} (h : handler requestsE W) (w : W) (req : FinaRequest).

(** The post raised: the exception leaves the handler. *)
Lemma run_post_raises (e : pyexc) (w1 : W) :
  post_answer h w req = (Raises e, w1) ->
  run h w (fina_categorize req)
  = ([Event (requests_post FINA_API_URL (fina_payload req) (fina_headers req) 15)
            (Raises e)],
     Raises e, w1).
Proof.
  unfold post_answer, fina_categorize. intros Hp. run_prog. by rewrite Hp.
Qed.

(** The upstream answered with an error status. *)
Lemma run_post_error (r : Response.t) (w1 : W) :
  post_answer h w req = (Returns r, w1) ->
  400 <= Response.status_code r ->
  run h w (fina_categorize req)
  = ([Event (requests_post FINA_API_URL (fina_payload req) (fina_headers req) 15)
            (Returns r)],
     Returns (PyDict [ (u "status", PyInt (Response.status_code r));
                       (u "error", PyStr (Response.text r)) ]),
     w1).
Proof.
  unfold post_answer, fina_categorize. intros Hp Hs. run_prog. rewrite Hp. run_prog.
  apply Z.leb_le in Hs. by rewrite Hs.
Qed.

(** The upstream answered with a status below 400: the body is parsed,
    and the raw text stands in when the parser raises. *)
Lemma run_post_success (r : Response.t) (w1 : W) (o : outcome pyval) (w2 : W) :
  post_answer h w req = (Returns r, w1) ->
  Response.status_code r < 400 ->
  h _ (Response_json r) w1 = (o, w2) ->
  run h w (fina_categorize req)
  = ([Event (requests_post FINA_API_URL (fina_payload req) (fina_headers req) 15)
            (Returns r);
      Event (Response_json r) o],
     Returns (PyDict [ (u "status", PyInt 200);
                       (u "categories",
                        match o with
                        | Returns data => data
                        | Raises _ => PyStr (Response.text r)
                        end) ]),
     w2).
Proof.
  unfold post_answer, fina_categorize. intros Hp Hs Hj. run_prog. rewrite Hp. run_prog.
  apply Z.leb_gt in Hs. rewrite Hs. run_prog. rewrite Hj. by destruct o.
Qed.

(** Every run makes exactly one post, first, with the payload and the
    headers computed from the request. *)
Lemma posted_fina_categorize :
  posted (trace_of h w (fina_categorize req))
  = [(FINA_API_URL, fina_payload req, fina_headers req, 15)].
Proof.
  unfold trace_of.
  destruct (post_answer h w req) as [[r|e] w1] eqn:Hp.
  - destruct (Z_lt_le_dec (Response.status_code r) 400) as [Hs|Hs].
    + destruct (h _ (Response_json r) w1) as [o w2] eqn:Hj.
      by rewrite (run_post_success r w1 o w2).
    + by rewrite (run_post_error r w1).
  - by rewrite (run_post_raises e w1).
Qed.

(** The answer a run got from the upstream is the answer to that post. *)
Lemma upstream_responses_fina_categorize :
  upstream_responses (trace_of h w (fina_categorize req)) = [fst (post_answer h w req)].
Proof.
  unfold trace_of.
  destruct (post_answer h w req) as [[r|e] w1] eqn:Hp.
  - destruct (Z_lt_le_dec (Response.status_code r) 400) as [Hs|Hs].
    + destruct (h _ (Response_json r) w1) as [o w2] eqn:Hj.
      by rewrite (run_post_success r w1 o w2).
    + by rewrite (run_post_error r w1).
  - by rewrite (run_post_raises e w1).
Qed.

End FinaRuns.

(** ** Claims on [fina_categorize] *)

Lemma fina_model_v1 (req : FinaRequest) :
  fina_model req = u "v1" <-> model req = Some (u "v1").
Proof.
  unfold fina_model, py_or. split.
  - destruct (model req) as [m|]; [|discriminate].
    destruct (truth m) eqn:Hm; [by intros ->|discriminate].
  - by intros ->.
Qed.

(** C1.  The payload posted upstream, read from the request body: with
    the resolved model version "v1" it is the list of the items' names in
    the order of the items; with any other version it is the list of the
    items as objects with the keys name, merchant and amount, where a
    merchant left out is "" and an amount left out is 0. *)
Theorem payload_by_model_version {W} (h : handler requestsE W) (w : W)
    (body : FinaRequestBody) :
  let req := FinaRequest_validate body in
  (fina_model req = u "v1" ->
   sent_payloads (trace_of h w (fina_categorize req))
   = [PyList (List.map (fun b => PyStr (body_name b)) (body_items body))])
  /\
  (fina_model req <> u "v1" ->
   sent_payloads (trace_of h w (fina_categorize req))
   = [PyList (List.map
        (fun b =>
           PyDict [ (u "name", PyStr (body_name b));
                    (u "merchant", match body_merchant b with
                                   | Omitted => PyStr (u "")
                                   | Null => PyNone
                                   | Given m => PyStr m
                                   end);
                    (u "amount", match body_amount b with
                                 | Omitted => PyInt 0
                                 | Null => PyNone
                                 | Given x => PyFloat x
                                 end) ])
        (body_items body))]).
Proof.
  intros req. unfold sent_payloads.
  rewrite posted_fina_categorize. cbn [List.map fst snd].
  unfold fina_payload. split; intros Hm.
  - rewrite bool_decide_eq_true_2 by exact Hm.
    subst req. cbn [items FinaRequest_validate].
    rewrite List.map_map. reflexivity.
  - rewrite bool_decide_eq_false_2 by exact Hm.
    subst req. cbn [items FinaRequest_validate].
    rewrite List.map_map. do 2 f_equal.
    apply List.map_ext. intros b. unfold model_dump, FinaItem_validate; cbn.
    by destruct (body_merchant b), (body_amount b).
Qed.

Lemma payload_by_model_version_witness :
  sent_payloads (trace_of (mock_upstream (Returns not_found) (Returns PyNone)) tt
                   (fina_categorize (FinaRequest_validate v1_body)))
  = [PyList [PyStr (u "coffee"); PyStr (u "rent")]]
  /\
  sent_payloads (trace_of (mock_upstream (Returns not_found) (Returns PyNone)) tt
                   (fina_categorize (FinaRequest_validate bare_body)))
  = [PyList [ PyDict [ (u "name", PyStr (u "coffee"));
                       (u "merchant", PyStr (u ""));
                       (u "amount", PyInt 0) ];
              PyDict [ (u "name", PyStr (u "rent"));
                       (u "merchant", PyStr (u "landlord"));
                       (u "amount", PyFloat (S754_finite false 75 4)) ] ]].
Proof.
  split.
  - apply (proj1 (payload_by_model_version
                    (mock_upstream (Returns not_found) (Returns PyNone)) tt v1_body)).
    reflexivity.
  - apply (proj2 (payload_by_model_version
                    (mock_upstream (Returns not_found) (Returns PyNone)) tt bare_body)).
    vm_compute. discriminate.
Defined.

(** C2.  When the upstream answers with a status of 400 or more, the
    handler returns (it does not raise) the dict with the upstream status
    under "status" and the raw body under "error"; no body was parsed as
    JSON during the run and the result has no "categories" key. *)
Theorem upstream_error_is_reported {W} (h : handler requestsE W) (w : W)
    (req : FinaRequest) (r : Response.t) :
  upstream_responses (trace_of h w (fina_categorize req)) = [Returns r] ->
  400 <= Response.status_code r ->
  exists res,
    outcome_of h w (fina_categorize req) = Returns res
    /\ res = PyDict [ (u "status", PyInt (Response.status_code r));
                      (u "error", PyStr (Response.text r)) ]
    /\ json_parsed (trace_of h w (fina_categorize req)) = []
    /\ has_key (u "categories") res = false.
Proof.
  rewrite upstream_responses_fina_categorize. intros [= Hr] Hs.
  destruct (post_answer h w req) as [o w1] eqn:Hp. simpl in Hr. subst o.
  eexists. unfold outcome_of, trace_of.
  rewrite (run_post_error h w req r w1 Hp Hs). cbn [fst snd].
  repeat split.
Qed.

Lemma upstream_error_is_reported_witness :
  exists res,
    outcome_of (mock_upstream (Returns not_found) (Returns PyNone)) tt
      (fina_categorize (FinaRequest_validate bare_body)) = Returns res
    /\ res = PyDict [ (u "status", PyInt 404); (u "error", PyStr (u "not found")) ]
    /\ json_parsed (trace_of (mock_upstream (Returns not_found) (Returns PyNone)) tt
                      (fina_categorize (FinaRequest_validate bare_body))) = []
    /\ has_key (u "categories") res = false.
Proof.
  apply (upstream_error_is_reported
           (mock_upstream (Returns not_found) (Returns PyNone)) tt
           (FinaRequest_validate bare_body) not_found).
  - reflexivity.
  - vm_compute. discriminate.
Defined.

(** C3.  When the upstream answers with a status below 400, the body of
    that response is parsed as JSON once, and the handler returns the
    dict with 200 under "status", whatever the upstream status was, and
    under "categories" the parsed value, or the raw body text when the
    parser raised. *)
Theorem upstream_success_is_relayed {W} (h : handler requestsE W) (w : W)
    (req : FinaRequest) (r : Response.t) :
  upstream_responses (trace_of h w (fina_categorize req)) = [Returns r] ->
  Response.status_code r < 400 ->
  exists o,
    json_parsed (trace_of h w (fina_categorize req)) = [(r, o)]
    /\ outcome_of h w (fina_categorize req)
       = Returns (PyDict [ (u "status", PyInt 200);
                           (u "categories",
                            match o with
                            | Returns data => data
                            | Raises _ => PyStr (Response.text r)
                            end) ]).
Proof.
  rewrite upstream_responses_fina_categorize. intros [= Hr] Hs.
  destruct (post_answer h w req) as [o1 w1] eqn:Hp. simpl in Hr. subst o1.
  destruct (h _ (Response_json r) w1) as [o w2] eqn:Hj.
  exists o. unfold outcome_of, trace_of.
  rewrite (run_post_success h w req r w1 o w2 Hp Hs Hj). split; reflexivity.
Qed.

Lemma upstream_success_is_relayed_witness :
  (exists o,
    json_parsed (trace_of (mock_upstream (Returns created_json)
                             (Returns (PyList [PyInt 1]))) tt
                   (fina_categorize (FinaRequest_validate bare_body)))
    = [(created_json, o)]
    /\ outcome_of (mock_upstream (Returns created_json)
                     (Returns (PyList [PyInt 1]))) tt
         (fina_categorize (FinaRequest_validate bare_body))
       = Returns (PyDict [ (u "status", PyInt 200);
                           (u "categories",
                            match o with
                            | Returns data => data
                            | Raises _ => PyStr (Response.text created_json)
                            end) ]))
  /\
  outcome_of (mock_upstream (Returns ok_plain_text)
                (Raises (u "JSONDecodeError"))) tt
    (fina_categorize (FinaRequest_validate bare_body))
  = Returns (PyDict [ (u "status", PyInt 200);
                      (u "categories", PyStr (u "plain text")) ]).
Proof.
  split.
  - apply (upstream_success_is_relayed
             (mock_upstream (Returns created_json) (Returns (PyList [PyInt 1]))) tt
             (FinaRequest_validate bare_body) created_json).
    + reflexivity.
    + vm_compute. reflexivity.
  - reflexivity.
Defined.

(** C7.  The headers posted upstream are the JSON content type and the
    four custom headers with the API key, the partner id, the model
    version and the mapping flag, all strings.  A mapping flag left out of
    the body is true and is sent as "true"; an explicit false is sent as
    "false". *)
Theorem headers_sent {W} (h : handler requestsE W) (w : W)
    (body : FinaRequestBody) :
  let req := FinaRequest_validate body in
  sent_headers (trace_of h w (fina_categorize req))
  = [[ (u "Content-Type", u "application/json");
       (u "x-api-key", fina_api_key req);
       (u "x-partner-id", fina_partner_id req);
       (u "x-api-model", fina_model req);
       (u "x-api-mapping", fina_mapping req) ]]
  /\ (body_mapping body = Omitted ->
      mapping req = Some true /\ fina_mapping req = u "true")
  /\ (body_mapping body = Given false -> fina_mapping req = u "false").
Proof.
  intros req. unfold sent_headers. rewrite posted_fina_categorize.
  split; [reflexivity|].
  subst req. unfold fina_mapping. cbn [mapping FinaRequest_validate].
  split; intros ->; cbn [optional]; auto.
Qed.

Lemma headers_sent_witness :
  sent_headers (trace_of (mock_upstream (Returns not_found) (Returns PyNone)) tt
                  (fina_categorize (FinaRequest_validate bare_body)))
  = [[ (u "Content-Type", u "application/json");
       (u "x-api-key", u "fina-api-test");
       (u "x-partner-id", u "f-j1fvmjmj");
       (u "x-api-model", u "v3");
       (u "x-api-mapping", u "true") ]]
  /\ fina_mapping (FinaRequest_validate bare_body) = u "true"
  /\ fina_mapping (FinaRequest_validate v1_body) = u "false".
Proof.
  split; [|split].
  - apply (proj1 (headers_sent
                    (mock_upstream (Returns not_found) (Returns PyNone)) tt bare_body)).
  - apply (proj1 (proj2 (headers_sent
                    (mock_upstream (Returns not_found) (Returns PyNone)) tt bare_body))).
    reflexivity.
  - apply (proj2 (proj2 (headers_sent
                    (mock_upstream (Returns not_found) (Returns PyNone)) tt v1_body))).
    reflexivity.
Defined.

(** C8 as the specification states it fails: an API key supplied as the
    empty string is not the value the header carries. *)
Lemma supplied_empty_api_key_not_used :
  body_api_key empty_key_body = Given (u "")
  /\ List.map (header (u "x-api-key"))
       (sent_headers (trace_of (mock_upstream (Returns not_found) (Returns PyNone)) tt
                        (fina_categorize (FinaRequest_validate empty_key_body))))
     = [Some (u "fina-api-test")]
  /\ u "fina-api-test" <> u "".
Proof.
  split; [reflexivity|]. split; [|discriminate].
  unfold sent_headers. rewrite posted_fina_categorize. reflexivity.
Qed.

(** C8, amended.  The x-api-key and x-partner-id headers carry the fixed
    default ("fina-api-test", "f-j1fvmjmj") when the field is left out of
    the body or is null, and the caller's value when it is supplied as a
    non-empty string. *)
Theorem credentials_default_or_supplied {W} (h : handler requestsE W) (w : W)
    (body : FinaRequestBody) :
  exists hs,
    sent_headers (trace_of h w (fina_categorize (FinaRequest_validate body))) = [hs]
    /\ (body_api_key body = Omitted \/ body_api_key body = Null ->
        header (u "x-api-key") hs = Some (u "fina-api-test"))
    /\ (forall k, body_api_key body = Given k -> k <> u "" ->
        header (u "x-api-key") hs = Some k)
    /\ (body_partner_id body = Omitted \/ body_partner_id body = Null ->
        header (u "x-partner-id") hs = Some (u "f-j1fvmjmj"))
    /\ (forall p, body_partner_id body = Given p -> p <> u "" ->
        header (u "x-partner-id") hs = Some p).
Proof.
  eexists. unfold sent_headers. rewrite posted_fina_categorize.
  split; [reflexivity|]. cbn [snd fst].
  unfold fina_headers, fina_api_key, fina_partner_id, header;
    cbn [api_key partner_id FinaRequest_validate List.find fst snd].
  repeat split.
  - intros [-> | ->]; reflexivity.
  - intros k -> Hk. destruct k; [done|reflexivity].
  - intros [-> | ->]; reflexivity.
  - intros p -> Hp. destruct p; [done|reflexivity].
Qed.

Lemma credentials_default_or_supplied_witness :
  exists hs hs',
    sent_headers (trace_of (mock_upstream (Returns not_found) (Returns PyNone)) tt
                    (fina_categorize (FinaRequest_validate bare_body))) = [hs]
    /\ header (u "x-api-key") hs = Some (u "fina-api-test")
    /\ header (u "x-partner-id") hs = Some (u "f-j1fvmjmj")
    /\ sent_headers (trace_of (mock_upstream (Returns not_found) (Returns PyNone)) tt
                       (fina_categorize (FinaRequest_validate v1_body))) = [hs']
    /\ header (u "x-api-key") hs' = Some (u "k-123")
    /\ header (u "x-partner-id") hs' = Some (u "p-9").
Proof.
  destruct (credentials_default_or_supplied
              (mock_upstream (Returns not_found) (Returns PyNone)) tt bare_body)
    as (hs & Hhs & Hk & _ & Hp & _).
  destruct (credentials_default_or_supplied
              (mock_upstream (Returns not_found) (Returns PyNone)) tt v1_body)
    as (hs' & Hhs' & _ & Hk' & _ & Hp').
  exists hs, hs'. repeat split.
  - exact Hhs.
  - apply Hk. left. reflexivity.
  - apply Hp. left. reflexivity.
  - exact Hhs'.
  - apply (Hk' (u "k-123")); [reflexivity | discriminate].
  - apply (Hp' (u "p-9")); [reflexivity | discriminate].
Defined.

(** C9.  An API key, a partner id or a model version supplied as the
    empty string is replaced by its default ("fina-api-test",
    "f-j1fvmjmj", "v3") in the headers posted upstream, and a mapping flag
    supplied as null is sent as "true". *)
Theorem falsy_fields_fall_back {W} (h : handler requestsE W) (w : W)
    (body : FinaRequestBody) :
  exists hs,
    sent_headers (trace_of h w (fina_categorize (FinaRequest_validate body))) = [hs]
    /\ (body_api_key body = Given (u "") ->
        header (u "x-api-key") hs = Some (u "fina-api-test"))
    /\ (body_partner_id body = Given (u "") ->
        header (u "x-partner-id") hs = Some (u "f-j1fvmjmj"))
    /\ (body_model body = Given (u "") ->
        header (u "x-api-model") hs = Some (u "v3"))
    /\ (body_mapping body = Null ->
        header (u "x-api-mapping") hs = Some (u "true")).
Proof.
  eexists. unfold sent_headers. rewrite posted_fina_categorize.
  split; [reflexivity|]. cbn [snd fst].
  unfold fina_headers, fina_api_key, fina_partner_id, fina_model, fina_mapping, header;
    cbn [api_key partner_id model mapping FinaRequest_validate List.find fst snd].
  repeat split; intros ->; reflexivity.
Qed.

Lemma falsy_fields_fall_back_witness :
  exists hs,
    sent_headers (trace_of (mock_upstream (Returns not_found) (Returns PyNone)) tt
                    (fina_categorize (FinaRequest_validate blank_body))) = [hs]
    /\ header (u "x-api-key") hs = Some (u "fina-api-test")
    /\ header (u "x-partner-id") hs = Some (u "f-j1fvmjmj")
    /\ header (u "x-api-model") hs = Some (u "v3")
    /\ header (u "x-api-mapping") hs = Some (u "true").
Proof.
  destruct (falsy_fields_fall_back
              (mock_upstream (Returns not_found) (Returns PyNone)) tt blank_body)
    as (hs & Hhs & Hk & Hp & Hm & Hf).
  exists hs. repeat split; [exact Hhs | apply Hk | apply Hp | apply Hm | apply Hf];
    reflexivity.
Defined.

(** ** Runs of [classify] *)

Section ClassifyRuns.
Context {T : Torch} {W : Type} (h : handler (hfE T) W) (w : W).
Context (id2label : id2label_attr) (item : ClassifyRequest).

(** The result [classify] builds from the scores the model returned. *)
Lemma run_classify_returns (inputs : Inputs T) (w1 : W) (logits : Tensor T) (w2 : W) :
  h _ (Tokenizer (prepare_text item)) w = (Returns inputs, w1) ->
  h _ (Model inputs) w1 = (Returns logits, w2) ->
  run h w (classify T id2label item)
  = ([Event (Tokenizer (prepare_text item)) (Returns inputs);
      Event (Model inputs) (Returns logits)],
     Returns
       (let probs := torch_softmax T logits in
        let label_id := torch_argmax T probs in
        PyDict [ (u "label_id", PyInt label_id);
                 (u "label_name", resolve_label_name id2label label_id);
                 (u "score", PyFloat (tensor_item T probs label_id)) ]),
     w2).
Proof.
  intros Ht Hm. unfold classify. run_prog. rewrite Ht. run_prog.
  rewrite Hm. reflexivity.
Qed.

Lemma run_classify_tokenizer_raises (e : pyexc) (w1 : W) :
  h _ (Tokenizer (prepare_text item)) w = (Raises e, w1) ->
  run h w (classify T id2label item)
  = ([Event (Tokenizer (prepare_text item)) (Raises e)], Raises e, w1).
Proof. intros Ht. unfold classify. run_prog. by rewrite Ht. Qed.

Lemma run_classify_model_raises (inputs : Inputs T) (w1 : W) (e : pyexc) (w2 : W) :
  h _ (Tokenizer (prepare_text item)) w = (Returns inputs, w1) ->
  h _ (Model inputs) w1 = (Raises e, w2) ->
  run h w (classify T id2label item)
  = ([Event (Tokenizer (prepare_text item)) (Returns inputs);
      Event (Model inputs) (Raises e)],
     Raises e, w2).
Proof.
  intros Ht Hm. unfold classify. run_prog. rewrite Ht. run_prog.
  by rewrite Hm.
Qed.

(** The tokenizer is called once, on the prepared text. *)
Lemma tokenized_classify :
  tokenized (trace_of h w (classify T id2label item)) = [prepare_text item].
Proof.
  unfold trace_of.
  destruct (h _ (Tokenizer (prepare_text item)) w) as [[inputs|e] w1] eqn:Ht.
  - destruct (h _ (Model inputs) w1) as [[logits|e] w2] eqn:Hm.
    + by rewrite (run_classify_returns inputs w1 logits w2).
    + by rewrite (run_classify_model_raises inputs w1 e w2).
  - by rewrite (run_classify_tokenizer_raises e w1).
Qed.

(** When the model returned scores, [classify] returns its result. *)
Lemma classify_returns (logits : Tensor T) :
  model_outputs (trace_of h w (classify T id2label item)) = [Returns logits] ->
  outcome_of h w (classify T id2label item)
  = Returns
      (let probs := torch_softmax T logits in
       let label_id := torch_argmax T probs in
       PyDict [ (u "label_id", PyInt label_id);
                (u "label_name", resolve_label_name id2label label_id);
                (u "score", PyFloat (tensor_item T probs label_id)) ]).
Proof.
  unfold trace_of, outcome_of.
  destruct (h _ (Tokenizer (prepare_text item)) w) as [[inputs|e] w1] eqn:Ht.
  - destruct (h _ (Model inputs) w1) as [[logits'|e] w2] eqn:Hm.
    + rewrite (run_classify_returns inputs w1 logits' w2) by done.
      by intros [= ->].
    + by rewrite (run_classify_model_raises inputs w1 e w2).
  - by rewrite (run_classify_tokenizer_raises e w1).
Qed.

End ClassifyRuns.

(** ** Claims on [classify] *)

Lemma type_in_tuple_spec (ty : option pystr) :
  type_in_tuple ty = true
  <-> exists t, ty = Some t /\ (t = u "income" \/ t = u "expense" \/ t = u "expenses").
Proof.
  unfold type_in_tuple. split.
  - destruct ty as [t|]; [|discriminate].
    rewrite !orb_true_iff, !bool_decide_eq_true. intros H. exists t. tauto.
  - intros (t & -> & H). rewrite !orb_true_iff, !bool_decide_eq_true. tauto.
Qed.

(** C4.  The tokenizer is called once.  With a type among "income",
    "expense" and "expenses" its argument is "Transaction: ", the trimmed
    text, " - Type: " and the type; with any other type, or none, it is the
    trimmed text. *)
Theorem tokenizer_text {T : Torch} {W} (h : handler (hfE T) W) (w : W)
    (id2label : id2label_attr) (item : ClassifyRequest) :
  (forall t, type item = Some t ->
     t = u "income" \/ t = u "expense" \/ t = u "expenses" ->
     tokenized (trace_of h w (classify T id2label item))
     = [u "Transaction: " ++ strip (text item) ++ u " - Type: " ++ t])
  /\
  ((forall t, type item = Some t ->
      t <> u "income" /\ t <> u "expense" /\ t <> u "expenses") ->
   tokenized (trace_of h w (classify T id2label item)) = [strip (text item)]).
Proof.
  rewrite tokenized_classify. unfold prepare_text. split.
  - intros t Ht Hin.
    assert (type_in_tuple (type item) = true) as ->
        by (apply type_in_tuple_spec; eauto).
    unfold transaction_template. by rewrite Ht.
  - intros Hout.
    destruct (type_in_tuple (type item)) eqn:E; [|reflexivity].
    apply type_in_tuple_spec in E as (t & Ht & Hin).
    destruct (Hout t Ht) as (H1 & H2 & H3). tauto.
Qed.

Lemma tokenizer_text_witness :
  tokenized (trace_of (mock_model 3) tt (classify stub_torch AttrMissing coffee_expense))
  = [u "Transaction: coffee shop - Type: expense"]
  /\
  tokenized (trace_of (mock_model 3) tt (classify stub_torch AttrMissing coffee_untyped))
  = [u "coffee shop"].
Proof.
  split.
  - apply (proj1 (tokenizer_text (mock_model 3) tt AttrMissing coffee_expense)
             (u "expense")).
    + reflexivity.
    + right. left. reflexivity.
  - apply (proj2 (tokenizer_text (mock_model 3) tt AttrMissing coffee_untyped)).
    intros t Ht. discriminate Ht.
Defined.

(** C6 as the specification states it fails: the label table contains the
    predicted id 0, mapped to the empty string, and the label name
    returned is "LABEL_0", not the mapped value. *)
Lemma mapped_empty_label_not_returned :
  ({[ 0 := PyStr (u "") ]} : gmap Z pyval) !! 0 = Some (PyStr (u ""))
  /\ outcome_of (mock_model 0) tt
       (classify stub_torch (AttrDict {[ 0 := PyStr (u "") ]}) coffee_untyped)
     = Returns (PyDict [ (u "label_id", PyInt 0);
                         (u "label_name", PyStr (u "LABEL_0"));
                         (u "score", PyFloat (S754_finite false 1 0)) ])
  /\ PyStr (u "LABEL_0") <> PyStr (u "").
Proof.
  split; [apply lookup_singleton_eq|].
  split; [|discriminate].
  unfold outcome_of.
  rewrite (run_classify_returns (mock_model 0) tt _ coffee_untyped
             (prepare_text coffee_untyped) tt 0 tt) by reflexivity.
  cbn [fst snd stub_torch torch_softmax torch_argmax tensor_item].
  unfold resolve_label_name. rewrite lookup_singleton_eq. reflexivity.
Qed.

(** C6, amended.  When the model returned scores, [classify] returns
    the predicted id under "label_id" and, under "label_name", the value
    the label table maps that id to when the table is a dict that contains
    the id with a truthy value; otherwise (no table, a table that is not a
    dict, an id the table lacks, or a falsy mapped value) the label name is
    "LABEL_" followed by the id in decimal. *)
Theorem label_name_resolution {T : Torch} {W} (h : handler (hfE T) W) (w : W)
    (id2label : id2label_attr) (item : ClassifyRequest) (logits : Tensor T) :
  model_outputs (trace_of h w (classify T id2label item)) = [Returns logits] ->
  let label_id := torch_argmax T (torch_softmax T logits) in
  exists label_name score,
    outcome_of h w (classify T id2label item)
    = Returns (PyDict [ (u "label_id", PyInt label_id);
                        (u "label_name", label_name);
                        (u "score", PyFloat score) ])
    /\ (forall d v, id2label = AttrDict d -> d !! label_id = Some v ->
        truth v = true -> label_name = v)
    /\ ((forall d v, id2label = AttrDict d -> d !! label_id = Some v ->
         truth v = false) ->
        label_name = PyStr (u "LABEL_" ++ str_of_int label_id)).
Proof.
  intros Hm label_id. do 2 eexists.
  split; [exact (classify_returns h w id2label item logits Hm)|].
  fold label_id. unfold resolve_label_name. split.
  - intros d v -> Hv Ht. rewrite Hv.
    change (default PyNone (Some v)) with v. by rewrite Ht.
  - intros Hfalsy. destruct id2label as [| |d]; try reflexivity.
    destruct (d !! label_id) as [v|] eqn:Hv; [|reflexivity].
    change (default PyNone (Some v)) with v.
    by rewrite (Hfalsy d v eq_refl Hv).
Qed.

Lemma label_name_resolution_witness :
  exists label_name score,
    outcome_of (mock_model 1) tt
      (classify stub_torch (AttrDict {[ 1 := PyStr (u "Food") ]}) coffee_untyped)
    = Returns (PyDict [ (u "label_id", PyInt 1);
                        (u "label_name", label_name);
                        (u "score", PyFloat score) ])
    /\ (forall d v, AttrDict {[ 1 := PyStr (u "Food") ]} = AttrDict d ->
        d !! 1 = Some v -> truth v = true -> label_name = v)
    /\ ((forall d v, AttrDict {[ 1 := PyStr (u "Food") ]} = AttrDict d ->
         d !! 1 = Some v -> truth v = false) ->
        label_name = PyStr (u "LABEL_" ++ str_of_int 1)).
Proof.
  apply (label_name_resolution (mock_model 1) tt
           (AttrDict {[ 1 := PyStr (u "Food") ]}) coffee_untyped 1).
  reflexivity.
Defined.

(** C10.  When the label table is a dict that contains the predicted id
    and maps it to a falsy value, such as the empty string or None,
    [classify] returns "LABEL_" followed by the id in decimal as the label
    name. *)
Theorem falsy_label_is_synthesized {T : Torch} {W} (h : handler (hfE T) W) (w : W)
    (d : gmap Z pyval) (item : ClassifyRequest) (logits : Tensor T) (v : pyval) :
  model_outputs (trace_of h w (classify T (AttrDict d) item)) = [Returns logits] ->
  let label_id := torch_argmax T (torch_softmax T logits) in
  d !! label_id = Some v ->
  v = PyStr (u "") \/ v = PyNone \/ truth v = false ->
  outcome_of h w (classify T (AttrDict d) item)
  = Returns (PyDict [ (u "label_id", PyInt label_id);
                      (u "label_name", PyStr (u "LABEL_" ++ str_of_int label_id));
                      (u "score",
                       PyFloat (tensor_item T (torch_softmax T logits) label_id)) ]).
Proof.
  intros Hm label_id Hv Hfalsy.
  rewrite (classify_returns h w (AttrDict d) item logits Hm).
  cbv zeta. fold label_id. unfold resolve_label_name. rewrite Hv.
  change (default PyNone (Some v)) with v.
  assert (truth v = false) as -> by (destruct Hfalsy as [-> | [-> | Ht]]; done).
  reflexivity.
Qed.

Lemma falsy_label_is_synthesized_witness :
  outcome_of (mock_model 2) tt
    (classify stub_torch (AttrDict {[ 2 := PyNone ]}) coffee_expense)
  = Returns (PyDict [ (u "label_id", PyInt 2);
                      (u "label_name", PyStr (u "LABEL_2"));
                      (u "score", PyFloat (S754_finite false 1 0)) ]).
Proof.
  apply (falsy_label_is_synthesized (mock_model 2) tt {[ 2 := PyNone ]}
           coffee_expense 2 PyNone).
  - reflexivity.
  - apply lookup_singleton_eq.
  - right. left. reflexivity.
Defined.

(** * Further properties *)

(** ** Trimming *)

Lemma lstrip_app_space (ws t : pystr) :
  forallb Py_UNICODE_ISSPACE ws = true -> lstrip (ws ++ t) = lstrip t.
Proof.
  induction ws as [|c ws IH]; simpl; [done|].
  intros [Hc Hws]%andb_prop. rewrite Hc. by apply IH.
Qed.

Lemma lstrip_all_space (ws : pystr) :
  forallb Py_UNICODE_ISSPACE ws = true -> lstrip ws = [].
Proof.
  intros H. rewrite <- (app_nil_r ws). by rewrite lstrip_app_space.
Qed.

Lemma forallb_space_rev (ws : pystr) :
  forallb Py_UNICODE_ISSPACE ws = true -> forallb Py_UNICODE_ISSPACE (rev ws) = true.
Proof.
  rewrite !forallb_forall. intros H c Hc. apply H. by apply in_rev.
Qed.

Lemma is_trimmed_ends (t : pystr) :
  is_trimmed t = true ->
  t = [] \/
  exists c t' d r, t = c :: t' /\ rev t = d :: r
    /\ Py_UNICODE_ISSPACE c = false /\ Py_UNICODE_ISSPACE d = false.
Proof.
  intros H. destruct t as [|c t']; [by left|]. right.
  unfold is_trimmed in H. apply andb_prop in H as [Hc Hd].
  apply negb_true_iff in Hc.
  destruct (rev (c :: t')) as [|d r] eqn:Hrev.
  { apply (f_equal (@rev N)) in Hrev. rewrite rev_involutive in Hrev. discriminate. }
  exists c, t', d, r. repeat split; [done|].
  apply (f_equal (@rev N)) in Hrev. rewrite rev_involutive in Hrev.
  simpl in Hrev. rewrite Hrev, last_snoc in Hd. by apply negb_true_iff in Hd.
Qed.

(** Trimming removes the surrounding whitespace and nothing else. *)
Lemma strip_unique (ws t ws' : pystr) :
  forallb Py_UNICODE_ISSPACE ws = true ->
  forallb Py_UNICODE_ISSPACE ws' = true ->
  is_trimmed t = true ->
  strip (ws ++ t ++ ws') = t.
Proof.
  intros Hws Hws' Ht. unfold strip. rewrite lstrip_app_space by done.
  destruct (is_trimmed_ends t Ht) as [-> | (c & t' & d & r & Hc & Hrev & Hsc & Hsd)].
  - simpl. by rewrite lstrip_all_space.
  - assert (lstrip (t ++ ws') = t ++ ws') as ->.
    { rewrite Hc. simpl. by rewrite Hsc. }
    unfold rstrip. rewrite rev_app_distr.
    rewrite lstrip_app_space by (by apply forallb_space_rev).
    rewrite Hrev. simpl. rewrite Hsd. rewrite <- Hrev. apply rev_involutive.
Qed.

Lemma strip_is_trimmed (s : pystr) : is_trimmed (strip s) = true.
Proof.
  unfold is_trimmed. destruct (strip s) as [|c t'] eqn:Hs; [done|].
  rewrite (strip_head s c t' Hs). simpl.
  destruct (last (c :: t')) as [d|] eqn:Hl; [|done].
  apply last_Some in Hl as [r Hr]. rewrite Hr in Hs.
  by rewrite (strip_last s d r Hs).
Qed.

Lemma strip_decompose (s : pystr) :
  exists ws ws', s = ws ++ strip s ++ ws'
    /\ forallb Py_UNICODE_ISSPACE ws = true
    /\ forallb Py_UNICODE_ISSPACE ws' = true.
Proof.
  destruct (lstrip_suffix s) as (ws & Hs & Hws).
  destruct (rstrip_prefix (lstrip s)) as (ws' & Hs' & Hws').
  exists ws, ws'. unfold strip. by rewrite <- Hs', <- Hs.
Qed.

Lemma strip_surrounded (ws s ws' : pystr) :
  forallb Py_UNICODE_ISSPACE ws = true ->
  forallb Py_UNICODE_ISSPACE ws' = true ->
  strip (ws ++ s ++ ws') = strip s.
Proof.
  intros Hws Hws'.
  destruct (strip_decompose s) as (a & b & Hs & Ha & Hb).
  rewrite Hs at 1.
  replace (ws ++ (a ++ strip s ++ b) ++ ws')
    with ((ws ++ a) ++ strip s ++ (b ++ ws'))
    by (by rewrite <- !app_assoc).
  apply strip_unique; [| |apply strip_is_trimmed];
    rewrite forallb_app; by apply andb_true_intro.
Qed.

(** ** The text [classify] prepares *)

(** X1.  Whitespace around the text of a request does not change what the
    tokenizer is called on. *)
Theorem surrounding_whitespace_ignored {T : Torch} {W} (h : handler (hfE T) W) (w : W)
    (id2label : id2label_attr) (ws s ws' : pystr) (ty : option pystr) :
  forallb Py_UNICODE_ISSPACE ws = true ->
  forallb Py_UNICODE_ISSPACE ws' = true ->
  tokenized (trace_of h w (classify T id2label {| text := ws ++ s ++ ws'; type := ty |}))
  = tokenized (trace_of h w (classify T id2label {| text := s; type := ty |})).
Proof.
  intros Hws Hws'. rewrite !tokenized_classify. unfold prepare_text.
  cbn [text type]. by rewrite strip_surrounded.
Qed.

Lemma surrounding_whitespace_ignored_witness :
  tokenized (trace_of (mock_model 3) tt
               (classify stub_torch AttrMissing
                  {| text := u "  " ++ u "coffee shop" ++ u " "; type := Some (u "expense") |}))
  = tokenized (trace_of (mock_model 3) tt
                 (classify stub_torch AttrMissing
                    {| text := u "coffee shop"; type := Some (u "expense") |})).
Proof.
  apply (surrounding_whitespace_ignored (mock_model 3) tt AttrMissing
           (u "  ") (u "coffee shop") (u " ") (Some (u "expense")));
    reflexivity.
Defined.

Lemma template_is_trimmed (txt t : pystr) :
  t = u "income" \/ t = u "expense" \/ t = u "expenses" ->
  is_trimmed (transaction_template txt (Some t)) = true.
Proof.
  intros Ht. unfold transaction_template, is_trimmed.
  change (default (u "None") (Some t)) with t.
  change (u "Transaction: ") with (84%N :: u "ransaction: ").
  cbn [app]. change (negb (Py_UNICODE_ISSPACE 84)) with true. cbn [andb].
  change (84%N :: (u "ransaction: " ++ txt ++ u " - Type: " ++ t))
    with ((84%N :: u "ransaction: ") ++ txt ++ u " - Type: " ++ t).
  rewrite !last_app.
  by destruct Ht as [-> | [-> | ->]].
Qed.

(** X2.  The text handed to the tokenizer never starts or ends with
    whitespace: trimming it again changes nothing. *)
Theorem tokenized_text_is_trimmed {T : Torch} {W} (h : handler (hfE T) W) (w : W)
    (id2label : id2label_attr) (item : ClassifyRequest) :
  exists s,
    tokenized (trace_of h w (classify T id2label item)) = [s]
    /\ is_trimmed s = true
    /\ strip s = s.
Proof.
  exists (prepare_text item). split; [apply tokenized_classify|].
  assert (is_trimmed (prepare_text item) = true) as Ht.
  { unfold prepare_text.
    destruct (type_in_tuple (type item)) eqn:E; [|apply strip_is_trimmed].
    apply type_in_tuple_spec in E as (t & -> & Hin). by apply template_is_trimmed. }
  split; [exact Ht|].
  rewrite <- (app_nil_r (prepare_text item)) at 1.
  by apply (strip_unique [] (prepare_text item) []).
Qed.

(** X3.  A text that is empty or all whitespace is not rejected: the
    tokenizer is called on the empty string when the type is not a
    recognised one, and on the template around an empty text when it is. *)
Theorem blank_text_is_tokenized {T : Torch} {W} (h : handler (hfE T) W) (w : W)
    (id2label : id2label_attr) (item : ClassifyRequest) :
  forallb Py_UNICODE_ISSPACE (text item) = true ->
  (type_in_tuple (type item) = false ->
   tokenized (trace_of h w (classify T id2label item)) = [u ""])
  /\
  (forall t, type item = Some t ->
     t = u "income" \/ t = u "expense" \/ t = u "expenses" ->
     tokenized (trace_of h w (classify T id2label item))
     = [u "Transaction:  - Type: " ++ t]).
Proof.
  intros Hblank. rewrite tokenized_classify. unfold prepare_text.
  assert (strip (text item) = []) as ->.
  { rewrite <- (app_nil_r (text item)).
    by apply (strip_unique (text item) [] []). }
  split.
  - by intros ->.
  - intros t Ht Hin.
    assert (type_in_tuple (type item) = true) as ->
        by (apply type_in_tuple_spec; eauto).
    rewrite Ht. reflexivity.
Qed.

Lemma blank_text_is_tokenized_witness :
  tokenized (trace_of (mock_model 3) tt (classify stub_torch AttrMissing blank_expense))
  = [u "Transaction:  - Type: expense"].
Proof.
  apply (proj2 (blank_text_is_tokenized (mock_model 3) tt AttrMissing blank_expense
                  eq_refl) (u "expense")).
  - reflexivity.
  - right. left. reflexivity.
Defined.

(** ** Failures and composition in [classify] *)

(** The three ways a run of [classify] can go, by what the tokenizer and
    the model answer. *)
Ltac classify_cases h w id2label item :=
  unfold trace_of, outcome_of;
  destruct (h _ (Tokenizer (prepare_text item)) w) as [[inputs|e] w1] eqn:Ht;
  [ destruct (h _ (Model inputs) w1) as [[logits|e] w2] eqn:Hm;
    [ rewrite (run_classify_returns h w id2label item inputs w1 logits w2 Ht Hm)
    | rewrite (run_classify_model_raises h w id2label item inputs w1 e w2 Ht Hm) ]
  | rewrite (run_classify_tokenizer_raises h w id2label item e w1 Ht) ].

(** X4.  When the tokenizer raises, [classify] raises the same exception
    and the model is never called. *)
Theorem tokenizer_failure_propagates {T : Torch} {W} (h : handler (hfE T) W) (w : W)
    (id2label : id2label_attr) (item : ClassifyRequest) (exc : pyexc) :
  tokenizer_outputs (trace_of h w (classify T id2label item)) = [Raises exc] ->
  outcome_of h w (classify T id2label item) = Raises exc
  /\ model_inputs (trace_of h w (classify T id2label item)) = [].
Proof.
  classify_cases h w id2label item; cbn; intros [= <-]; done.
Qed.

Lemma tokenizer_failure_propagates_witness :
  outcome_of (failing_tokenizer (u "ValueError")) tt
    (classify stub_torch AttrMissing coffee_expense) = Raises (u "ValueError")
  /\ model_inputs (trace_of (failing_tokenizer (u "ValueError")) tt
                     (classify stub_torch AttrMissing coffee_expense)) = [].
Proof.
  apply (tokenizer_failure_propagates (failing_tokenizer (u "ValueError")) tt
           AttrMissing coffee_expense (u "ValueError")).
  reflexivity.
Defined.

(** X5.  [classify] raises an exception exactly when the tokenizer or the
    model raised it: nothing else in the handler fails, and no failure of
    the two is swallowed. *)
Theorem classify_raises_iff {T : Torch} {W} (h : handler (hfE T) W) (w : W)
    (id2label : id2label_attr) (item : ClassifyRequest) (exc : pyexc) :
  outcome_of h w (classify T id2label item) = Raises exc
  <-> tokenizer_outputs (trace_of h w (classify T id2label item)) = [Raises exc]
      \/ model_outputs (trace_of h w (classify T id2label item)) = [Raises exc].
Proof.
  classify_cases h w id2label item; cbn; split;
    try (intros [= <-]; auto; fail);
    try (intros [[= <-] | [= <-]]; auto; fail);
    try discriminate; intros [H | H]; discriminate H.
Qed.

(** X6.  The tokenizer is called first and once; when it returns, the
    model is called once, on exactly what the tokenizer returned. *)
Theorem model_gets_tokenizer_output {T : Torch} {W} (h : handler (hfE T) W) (w : W)
    (id2label : id2label_attr) (item : ClassifyRequest) (inputs : Inputs T) :
  tokenizer_outputs (trace_of h w (classify T id2label item)) = [Returns inputs] ->
  model_inputs (trace_of h w (classify T id2label item)) = [inputs]
  /\ call_order (trace_of h w (classify T id2label item)) = [ToTokenizer; ToModel].
Proof.
  rename inputs into given.
  classify_cases h w id2label item; cbn; intros [= <-]; done.
Qed.

Lemma model_gets_tokenizer_output_witness :
  model_inputs (trace_of (mock_model 3) tt
                  (classify stub_torch AttrMissing coffee_untyped))
  = [u "coffee shop"]
  /\ call_order (trace_of (mock_model 3) tt
                   (classify stub_torch AttrMissing coffee_untyped))
     = [ToTokenizer; ToModel].
Proof.
  apply (model_gets_tokenizer_output (mock_model 3) tt AttrMissing coffee_untyped
           (u "coffee shop")).
  reflexivity.
Defined.

(** ** The label name *)

Lemma u_inj (a b : string) : u a = u b -> a = b.
Proof.
  unfold u. intros H.
  apply (f_equal (List.map ascii_of_N)) in H.
  rewrite !List.map_map in H.
  rewrite !(List.map_ext _ (fun a => a) ascii_N_embedding), !List.map_id in H.
  apply (f_equal string_of_list_ascii) in H.
  by rewrite !string_of_list_ascii_of_string in H.
Qed.

Lemma str_of_int_inj (a b : Z) : str_of_int a = str_of_int b -> a = b.
Proof. unfold str_of_int. intros H%u_inj. by apply (inj pretty). Qed.

Lemma resolve_label_name_truthy (id2label : id2label_attr) (label_id : Z) :
  truth (resolve_label_name id2label label_id) = true.
Proof.
  unfold resolve_label_name.
  destruct (truth (match id2label with
                   | AttrDict d => default PyNone (d !! label_id)
                   | _ => PyNone
                   end)) eqn:E; [exact E|reflexivity].
Qed.

Lemma dict_get_label_name (a b c : pyval) :
  dict_get (u "label_name")
    [ (u "label_id", a); (u "label_name", b); (u "score", c) ] = Some b.
Proof. reflexivity. Qed.

(** X7.  Whenever [classify] returns, the label name in its result is
    truthy: it is never None and never the empty string. *)
Theorem label_name_never_empty {T : Torch} {W} (h : handler (hfE T) W) (w : W)
    (id2label : id2label_attr) (item : ClassifyRequest) (res : pyval) :
  outcome_of h w (classify T id2label item) = Returns res ->
  exists kvs v,
    res = PyDict kvs
    /\ dict_get (u "label_name") kvs = Some v
    /\ truth v = true /\ v <> PyNone /\ v <> PyStr (u "").
Proof.
  classify_cases h w id2label item; cbn [fst snd]; [|discriminate..].
  intros [= <-]. do 2 eexists. split; [reflexivity|].
  split; [apply dict_get_label_name|].
  pose proof (resolve_label_name_truthy id2label
                (torch_argmax T (torch_softmax T logits))) as Htruth.
  split; [exact Htruth|].
  split; intros Hv; rewrite Hv in Htruth; discriminate Htruth.
Qed.

Lemma label_name_never_empty_witness :
  exists kvs v,
    PyDict [ (u "label_id", PyInt 0);
             (u "label_name", PyStr (u "LABEL_0"));
             (u "score", PyFloat (S754_finite false 1 0)) ] = PyDict kvs
    /\ dict_get (u "label_name") kvs = Some v
    /\ truth v = true /\ v <> PyNone /\ v <> PyStr (u "").
Proof.
  apply (label_name_never_empty (mock_model 0) tt AttrMissing coffee_untyped).
  reflexivity.
Defined.

(** X8.  For ids the label table does not map (or without a table), two
    predicted ids get the same label name only if they are the same id:
    the synthesised names "LABEL_<id>" never collide. *)
Theorem synthesized_names_distinct (id2label : id2label_attr) (a b : Z) :
  (forall d, id2label = AttrDict d -> d !! a = None /\ d !! b = None) ->
  resolve_label_name id2label a = resolve_label_name id2label b <-> a = b.
Proof.
  intros Habsent. split; [|by intros ->].
  unfold resolve_label_name.
  destruct id2label as [| |d].
  - intros [= H%str_of_int_inj]. exact H.
  - intros [= H%str_of_int_inj]. exact H.
  - destruct (Habsent d eq_refl) as [-> ->].
    intros [= H%str_of_int_inj]. exact H.
Qed.

Lemma synthesized_names_distinct_witness :
  resolve_label_name (AttrDict {[ 7 := PyStr (u "Rent") ]}) 3
  = resolve_label_name (AttrDict {[ 7 := PyStr (u "Rent") ]}) 4
  <-> 3 = 4.
Proof.
  apply (synthesized_names_distinct (AttrDict {[ 7 := PyStr (u "Rent") ]}) 3 4).
  intros d [= <-]. split; apply lookup_singleton_ne; lia.
Defined.

Lemma dict_get_label_id (a b c : pyval) :
  dict_get (u "label_id")
    [ (u "label_id", a); (u "label_name", b); (u "score", c) ] = Some a.
Proof. reflexivity. Qed.

Lemma dict_get_score (a b c : pyval) :
  dict_get (u "score")
    [ (u "label_id", a); (u "label_name", b); (u "score", c) ] = Some c.
Proof. reflexivity. Qed.

(** X9.  The label table is consulted for the label name only: with two
    different tables the same calls are made with the same answers, the
    same exception is raised if any, and the results agree on label_id and
    score. *)
Theorem label_table_only_affects_name {T : Torch} {W} (h : handler (hfE T) W) (w : W)
    (c1 c2 : id2label_attr) (item : ClassifyRequest) :
  trace_of h w (classify T c1 item) = trace_of h w (classify T c2 item)
  /\ (forall exc, outcome_of h w (classify T c1 item) = Raises exc ->
      outcome_of h w (classify T c2 item) = Raises exc)
  /\ (forall r1, outcome_of h w (classify T c1 item) = Returns r1 ->
      exists k1 k2,
        r1 = PyDict k1
        /\ outcome_of h w (classify T c2 item) = Returns (PyDict k2)
        /\ dict_get (u "label_id") k1 = dict_get (u "label_id") k2
        /\ dict_get (u "score") k1 = dict_get (u "score") k2).
Proof.
  unfold trace_of, outcome_of.
  destruct (h _ (Tokenizer (prepare_text item)) w) as [[inputs|e] w1] eqn:Ht.
  - destruct (h _ (Model inputs) w1) as [[logits|e] w2] eqn:Hm.
    + rewrite (run_classify_returns h w c1 item inputs w1 logits w2 Ht Hm).
      rewrite (run_classify_returns h w c2 item inputs w1 logits w2 Ht Hm).
      cbn [fst snd]. split; [reflexivity|]. split; [discriminate|].
      intros r1 [= <-]. do 2 eexists. split; [reflexivity|].
      split; [reflexivity|].
      by rewrite !dict_get_label_id, !dict_get_score.
    + rewrite (run_classify_model_raises h w c1 item inputs w1 e w2 Ht Hm).
      rewrite (run_classify_model_raises h w c2 item inputs w1 e w2 Ht Hm).
      cbn [fst snd]. repeat split; [done | discriminate].
  - rewrite (run_classify_tokenizer_raises h w c1 item e w1 Ht).
    rewrite (run_classify_tokenizer_raises h w c2 item e w1 Ht).
    cbn [fst snd]. repeat split; [done | discriminate].
Qed.

(** ** Failures and the shape of results in [fina_categorize] *)

(** The three ways a run of [fina_categorize] can go, by what the
    upstream answers. *)
Ltac fina_cases h w req :=
  unfold trace_of, outcome_of;
  destruct (post_answer h w req) as [[r|e] w1] eqn:Hp;
  [ destruct (Z_lt_le_dec (Response.status_code r) 400) as [Hs|Hs];
    [ destruct (h _ (Response_json r) w1) as [o w2] eqn:Hj;
      rewrite (run_post_success h w req r w1 o w2 Hp Hs Hj)
    | rewrite (run_post_error h w req r w1 Hp Hs) ]
  | rewrite (run_post_raises h w req e w1 Hp) ].

(** X10.  [fina_categorize] raises an exception exactly when
    [requests.post] raised it (a network failure or the timeout); in that
    case no body is parsed.  A parser failure alone never makes the
    handler raise. *)
Theorem fina_raises_iff_post_raised {W} (h : handler requestsE W) (w : W)
    (req : FinaRequest) (exc : pyexc) :
  (outcome_of h w (fina_categorize req) = Raises exc
   <-> upstream_responses (trace_of h w (fina_categorize req)) = [Raises exc])
  /\ (upstream_responses (trace_of h w (fina_categorize req)) = [Raises exc] ->
      json_parsed (trace_of h w (fina_categorize req)) = []).
Proof.
  fina_cases h w req; cbn; repeat split; try discriminate;
    intros [= <-]; reflexivity.
Qed.

(** X11.  Every run posts exactly once, to the fixed Fina URL with a
    timeout of 15 seconds, whatever the upstream answers: an error status
    or an exception is never followed by a second attempt. *)
Theorem single_post_no_retry {W} (h : handler requestsE W) (w : W)
    (req : FinaRequest) :
  List.map (fun p => (fst (fst (fst p)), snd p))
    (posted (trace_of h w (fina_categorize req)))
  = [(u "https://app.fina.money/api/resource/categorize", 15)]
  /\ length (upstream_responses (trace_of h w (fina_categorize req))) = 1%nat.
Proof.
  rewrite posted_fina_categorize, upstream_responses_fina_categorize.
  split; reflexivity.
Qed.

(** X12.  A body is parsed as JSON at most once per run, and only the
    body of the response the post returned, and only when its status is
    below 400. *)
Theorem json_parsed_only_success_response {W} (h : handler requestsE W) (w : W)
    (req : FinaRequest) (resp : Response.t) (parsed : outcome pyval) :
  In (resp, parsed) (json_parsed (trace_of h w (fina_categorize req))) ->
  json_parsed (trace_of h w (fina_categorize req)) = [(resp, parsed)]
  /\ upstream_responses (trace_of h w (fina_categorize req)) = [Returns resp]
  /\ Response.status_code resp < 400.
Proof.
  fina_cases h w req; cbn; intros Hin; try (destruct Hin; fail).
  destruct Hin as [[= <- <-] | []]. done.
Qed.

Lemma json_parsed_only_success_response_witness :
  json_parsed (trace_of (mock_upstream (Returns ok_plain_text)
                           (Raises (u "JSONDecodeError"))) tt
                 (fina_categorize (FinaRequest_validate bare_body)))
  = [(ok_plain_text, Raises (u "JSONDecodeError"))]
  /\ upstream_responses (trace_of (mock_upstream (Returns ok_plain_text)
                                    (Raises (u "JSONDecodeError"))) tt
                          (fina_categorize (FinaRequest_validate bare_body)))
     = [Returns ok_plain_text]
  /\ Response.status_code ok_plain_text < 400.
Proof.
  apply (json_parsed_only_success_response
           (mock_upstream (Returns ok_plain_text) (Raises (u "JSONDecodeError"))) tt
           (FinaRequest_validate bare_body) ok_plain_text (Raises (u "JSONDecodeError"))).
  left. reflexivity.
Defined.

(** X13.  Every result [fina_categorize] returns is a dict with an
    integer "status" that is 200 or at least 400, and with exactly one of
    "error" and "categories": "error" when the status is at least 400,
    "categories" when it is 200. *)
Theorem result_shape {W} (h : handler requestsE W) (w : W)
    (req : FinaRequest) (res : pyval) :
  outcome_of h w (fina_categorize req) = Returns res ->
  exists kvs st,
    res = PyDict kvs
    /\ dict_get (u "status") kvs = Some (PyInt st)
    /\ (st = 200 \/ 400 <= st)
    /\ (has_key (u "error") res = true <-> 400 <= st)
    /\ has_key (u "categories") res = negb (has_key (u "error") res).
Proof.
  fina_cases h w req; cbn [fst snd]; [| |discriminate].
  - intros [= <-]. do 2 eexists. split; [reflexivity|].
    split; [reflexivity|]. split; [by left|].
    split; [|reflexivity]. split; [discriminate|]. intros H. lia.
  - intros [= <-]. do 2 eexists. split; [reflexivity|].
    split; [reflexivity|]. split; [by right|].
    split; [|reflexivity]. split; [done|reflexivity].
Qed.

Lemma result_shape_witness :
  exists kvs st,
    PyDict [ (u "status", PyInt 404); (u "error", PyStr (u "not found")) ] = PyDict kvs
    /\ dict_get (u "status") kvs = Some (PyInt st)
    /\ (st = 200 \/ 400 <= st)
    /\ (has_key (u "error")
          (PyDict [ (u "status", PyInt 404); (u "error", PyStr (u "not found")) ]) = true
        <-> 400 <= st)
    /\ has_key (u "categories")
         (PyDict [ (u "status", PyInt 404); (u "error", PyStr (u "not found")) ])
       = negb (has_key (u "error")
                 (PyDict [ (u "status", PyInt 404); (u "error", PyStr (u "not found")) ])).
Proof.
  apply (result_shape (mock_upstream (Returns not_found) (Returns PyNone)) tt
           (FinaRequest_validate bare_body)).
  reflexivity.
Defined.

(** ** What [fina_categorize] sends *)

Lemma py_or_truthy (x : option pystr) (d : pystr) :
  truth d = true -> truth (py_or x d) = true.
Proof.
  intros Hd. unfold py_or. destruct x as [a|]; [|exact Hd].
  destruct (truth a) eqn:Ha; [exact Ha|exact Hd].
Qed.

(** X14.  None of the four custom headers is ever sent empty: whatever
    the request holds, each of x-api-key, x-partner-id, x-api-model and
    x-api-mapping is present with a non-empty value. *)
Theorem custom_headers_never_empty {W} (h : handler requestsE W) (w : W)
    (req : FinaRequest) :
  exists hs,
    sent_headers (trace_of h w (fina_categorize req)) = [hs]
    /\ forall k,
         In k [u "x-api-key"; u "x-partner-id"; u "x-api-model"; u "x-api-mapping"] ->
         exists v, header k hs = Some v /\ v <> u "".
Proof.
  eexists. unfold sent_headers. rewrite posted_fina_categorize.
  split; [reflexivity|]. cbn [snd fst].
  assert (forall v : pystr, truth v = true -> v <> u "") as Hne
      by (intros v Hv ->; discriminate Hv).
  intros k [<- | [<- | [<- | [<- | []]]]]; eexists; (split; [reflexivity|]);
    apply Hne.
  - by apply py_or_truthy.
  - by apply py_or_truthy.
  - by apply py_or_truthy.
  - unfold fina_mapping. by destruct (mapping req) as [[]|].
Qed.

(** X15.  A model version left out of the body, or null, is sent as "v3"
    and the payload is then the list of full item objects; a non-empty
    version is sent as given. *)
Theorem model_version_default {W} (h : handler requestsE W) (w : W)
    (body : FinaRequestBody) :
  let req := FinaRequest_validate body in
  exists hs,
    sent_headers (trace_of h w (fina_categorize req)) = [hs]
    /\ (body_model body = Omitted \/ body_model body = Null ->
        header (u "x-api-model") hs = Some (u "v3")
        /\ sent_payloads (trace_of h w (fina_categorize req))
           = [PyList (List.map model_dump (items req))])
    /\ (forall m, body_model body = Given m -> m <> u "" ->
        header (u "x-api-model") hs = Some m).
Proof.
  intros req. eexists. unfold sent_headers, sent_payloads.
  rewrite posted_fina_categorize.
  split; [reflexivity|]. cbn [snd fst List.map].
  unfold fina_payload, fina_headers, fina_model, header; subst req;
    cbn [model FinaRequest_validate List.find fst snd].
  split.
  - intros [-> | ->]; split; reflexivity.
  - intros m -> Hm. destruct m; [done|reflexivity].
Qed.

Lemma model_version_default_witness :
  exists hs,
    sent_headers (trace_of (mock_upstream (Returns not_found) (Returns PyNone)) tt
                    (fina_categorize (FinaRequest_validate bare_body))) = [hs]
    /\ header (u "x-api-model") hs = Some (u "v3")
    /\ sent_payloads (trace_of (mock_upstream (Returns not_found) (Returns PyNone)) tt
                        (fina_categorize (FinaRequest_validate bare_body)))
       = [PyList (List.map model_dump (items (FinaRequest_validate bare_body)))].
Proof.
  destruct (model_version_default
              (mock_upstream (Returns not_found) (Returns PyNone)) tt bare_body)
    as (hs & Hhs & Hdefault & _).
  exists hs. split; [exact Hhs|]. apply Hdefault. left. reflexivity.
Defined.

(** X16.  A request without items is still posted: the payload is the
    empty list, under "v1" and under every other model version. *)
Theorem empty_items_posted {W} (h : handler requestsE W) (w : W)
    (req : FinaRequest) :
  items req = [] ->
  sent_payloads (trace_of h w (fina_categorize req)) = [PyList []].
Proof.
  intros Hitems. unfold sent_payloads. rewrite posted_fina_categorize.
  cbn [List.map fst snd]. unfold fina_payload. rewrite Hitems.
  by destruct (bool_decide (fina_model req = u "v1")).
Qed.

Lemma empty_items_posted_witness :
  sent_payloads (trace_of (mock_upstream (Returns not_found) (Returns PyNone)) tt
                   (fina_categorize (FinaRequest_validate no_items_body)))
  = [PyList []].
Proof.
  apply (empty_items_posted (mock_upstream (Returns not_found) (Returns PyNone)) tt
           (FinaRequest_validate no_items_body)).
  reflexivity.
Defined.



(** X18.  With a type that is not a recognised one, the tokenizer gets
    the text of the request without some whitespace at its two ends and
    nothing else removed or added. *)
Theorem untyped_text_loses_only_outer_whitespace {T : Torch} {W}
    (h : handler (hfE T) W) (w : W) (id2label : id2label_attr)
    (item : ClassifyRequest) :
  type_in_tuple (type item) = false ->
  exists ws s ws',
    tokenized (trace_of h w (classify T id2label item)) = [s]
    /\ text item = ws ++ s ++ ws'
    /\ forallb Py_UNICODE_ISSPACE ws = true
    /\ forallb Py_UNICODE_ISSPACE ws' = true.
Proof.
  intros Hty. destruct (strip_decompose (text item)) as (ws & ws' & Hs & Hws & Hws').
  exists ws, (strip (text item)), ws'. rewrite tokenized_classify.
  unfold prepare_text. rewrite Hty. done.
Qed.

Lemma untyped_text_loses_only_outer_whitespace_witness :
  exists ws s ws',
    tokenized (trace_of (mock_model 3) tt
                 (classify stub_torch AttrMissing coffee_untyped)) = [s]
    /\ text coffee_untyped = ws ++ s ++ ws'
    /\ forallb Py_UNICODE_ISSPACE ws = true
    /\ forallb Py_UNICODE_ISSPACE ws' = true.
Proof.
  apply (untyped_text_loses_only_outer_whitespace (mock_model 3) tt AttrMissing
           coffee_untyped).
  reflexivity.
Defined.

(** ** [health] *)

(** The liveness probe answers without calling the tokenizer, the model
    or the upstream, and leaves the world as it was. *)
Lemma health_run {E W} (h : handler E W) (w : W) :
  run h w health = ([], Returns (PyDict [ (u "status", PyStr (u "ok")) ]), w).
Proof. reflexivity. Qed.
